(** * vague: recursive Bayesian state estimator

    Shallow embedding of [include/vague/state_estimator.hpp]:
    [PredictedObservation], [TimeDependentAdditiveProcessNoise] and the
    class [StateEstimator] with its three member functions [predict],
    [predict_observation] and [assimilate].

    Conventions of the embedding.

    - [Scalar] is a field [F]: every statement below is a statement of
      exact arithmetic.  Eigen's fixed-size matrices
      [Eigen::Matrix<Scalar, R, C>] are MathComp matrices ['M[F]_(R, C)],
      column vectors are ['cV[F]_R].
    - [TimePoint] is a tick count (an integer); [t - time] is the signed
      difference of two tick counts and [duration.count()] is that
      difference.  Overflow of the representation is undefined behaviour in
      the source and is not part of the model.
    - Member functions run in the monad [M]: they read and write the
      estimator, may throw, and log every call they make to a callable
      supplied by the caller.  The log is ghost state: it records which of
      the caller's callables were invoked, in order. *)

From Stdlib Require Import String.
From mathcomp Require Import boot order algebra.

Set Implicit Arguments.
Unset Strict Implicit.
Unset Printing Implicit Defensive.

Import Order.TTheory GRing.Theory Num.Theory.
Local Open Scope ring_scope.

(** ** Data model *)

Section DataModel.

Variable F : fieldType.

(** [MeanAndCovariance<Space, Scalar>] of [vague/estimate.hpp], through the
    two fields the estimator reads and writes. *)
Record MeanAndCovariance (n : nat) : Type := MkMeanAndCovariance {
  mean : 'cV[F]_n;
  covariance : 'M[F]_n
}.

(** [PredictedObservation<StateSpace, ObservationSpace, Scalar>]: it derives
    from [MeanAndCovariance<ObservationSpace, Scalar>] and adds
    [cross_covariance], of shape [StateSpace::N x ObservationSpace::N]. *)
Record PredictedObservation (n m : nat) : Type := MkPredictedObservation {
  base : MeanAndCovariance m;
  cross_covariance : 'M[F]_(n, m)
}.

(** [StateEstimator<StateSpace, Scalar, TimePoint>]: its two data members. *)
Record StateEstimator (n : nat) : Type := MkStateEstimator {
  time : int;
  estimate : MeanAndCovariance n
}.

(** [TimeDependentAdditiveProcessNoise<StateSpace, Scalar>]: its data
    member, set by the constructor. *)
Record TimeDependentAdditiveProcessNoise (n : nat) : Type :=
  MkTimeDependentAdditiveProcessNoise {
  process_noise_per_second : 'M[F]_n
}.

End DataModel.

Arguments MkMeanAndCovariance {F n} mean covariance.
Arguments MkPredictedObservation {F n m} base cross_covariance.
Arguments MkStateEstimator {F n} time estimate.

(** ** Exceptions, the call log and the monad of member functions *)

(** The only exception the estimator throws itself is a
    [std::runtime_error], told apart by its [what()] message. *)
Inductive exception : Type :=
  | runtime_error (what : string).

(** The callables a member function can invoke on behalf of its caller. *)
Inductive callee : Type :=
  | dynamics_call
  | process_noise_call
  | observer_call
  | jacobian_call
  | sample_call.

Inductive completion (A : Type) : Type :=
  | Returned (a : A)
  | Threw (e : exception).

Arguments Threw {A} e.

Section MemberMonad.

Variable St : Type.

(** What a call leaves behind: how it completed, the object it ran on, and
    the callables it invoked, oldest first. *)
Record outcome (A : Type) : Type := MkOutcome {
  completed : completion A;
  self_after : St;
  calls : seq callee
}.

Definition M (A : Type) : Type := St -> outcome A.

Definition ret {A} (a : A) : M A := fun s => MkOutcome (Returned a) s [::].

Definition throw {A} (e : exception) : M A := fun s => MkOutcome (Threw e) s [::].

Definition bind {A B} (c : M A) (k : A -> M B) : M B := fun s =>
  let r := c s in
  match completed r with
  | Returned a =>
      let r' := k a (self_after r) in
      MkOutcome (completed r') (self_after r') (calls r ++ calls r')
  | Threw e => MkOutcome (Threw e) (self_after r) (calls r)
  end.

Definition get : M St := fun s => MkOutcome (Returned s) s [::].

Definition put (s' : St) : M unit := fun _ => MkOutcome (Returned tt) s' [::].

(** Invoking one of the caller's callables: the value it returns, logged. *)
Definition invoke {A} (c : callee) (a : A) : M A :=
  fun s => MkOutcome (Returned a) s [:: c].

End MemberMonad.

Arguments ret {St A} a.
Arguments throw {St A} e.
Arguments get {St}.
Arguments invoke {St A} c a.

Notation "c >>= k" := (bind c k) (at level 50, left associativity).
Notation "c1 >> c2" := (bind c1 (fun _ => c2)) (at level 50, left associativity).

(** ** Weighted sample sets *)

Section Samples.

Variable F : fieldType.

(** Modelled from the spec: the weighted point set of [vague/estimate.hpp],
    which is not among the sources.  One sample per column, one weight per
    sample; the estimator reads its [weights] member and calls
    [mean_centered_samples()] and [statistics()] on it. *)
Record WeightedSamples (n k : nat) : Type := MkWeightedSamples {
  samples : 'M[F]_(n, k);
  weights : 'cV[F]_k
}.

(** Modelled from the spec: [mean_centered_samples()] of the missing
    [vague/estimate.hpp], which "returns mean plus a matrix of points minus
    mean".  The mean of a weighted point set is the weighted sum of its
    points. *)
Definition mean_centered_samples n k (sp : WeightedSamples n k) :
    'cV[F]_n * 'M[F]_(n, k) :=
  let mu := samples sp *m weights sp in
  (mu, samples sp - mu *m const_mx 1).

(** Modelled from the spec: [statistics()] of the missing
    [vague/estimate.hpp], which "recombines a weighted point set into
    mean+covariance": the weighted mean, and the weighted sum of the outer
    products of the centred points with themselves. *)
Definition statistics n k (sp : WeightedSamples n k) : MeanAndCovariance F n :=
  let: (mu, centred) := mean_centered_samples sp in
  MkMeanAndCovariance mu (centred *m diag_mx (weights sp)^T *m centred^T).

End Samples.

Arguments MkWeightedSamples {F n k} samples weights.

(** ** The estimator *)

Section Estimator.

Variable F : fieldType.

(** [StateSpace::N]. *)
Variable n : nat.

(** Number of points of a sigma-point set. *)
Variable k : nat.

(** [sample(estimate, unscented_transform::CubatureSigmaPoints())] of
    [vague/unscented_transform.hpp], which is not among the sources: a
    parameter of the development. *)
Variable sample : MeanAndCovariance F n -> WeightedSamples F n k.

(** [Eigen::PartialPivLU<Matrix>(A).inverse()], a function of the Eigen
    library: a parameter; the theorems that depend on its value assume that
    it is the inverse on invertible matrices, and nothing elsewhere. *)
Variable lu_inverse : forall m : nat, 'M[F]_m -> 'M[F]_m.

(** Length of one tick of [TimePoint]'s duration type, in seconds. *)
Variable seconds_per_tick : F.

(** [std::chrono::duration_cast<std::chrono::duration<Scalar>>(d).count()]:
    a duration of [d] ticks, in seconds. *)
Definition duration_cast (d : int) : F := d%:~R * seconds_per_tick.

Local Notation Self := (StateEstimator F n).
Local Notation Belief := (MeanAndCovariance F).

(** Assignments to the data members. *)
Definition set_time (t : int) : M Self unit :=
  get >>= fun self => put (MkStateEstimator t (estimate self)).

Definition set_estimate (e : Belief n) : M Self unit :=
  get >>= fun self => put (MkStateEstimator (time self) e).

Definition set_mean (mu : 'cV[F]_n) : M Self unit :=
  get >>= fun self =>
  set_estimate (MkMeanAndCovariance mu (covariance (estimate self))).

Definition set_covariance (P : 'M[F]_n) : M Self unit :=
  get >>= fun self =>
  set_estimate (MkMeanAndCovariance (mean (estimate self)) P).

(** The [Dynamics] template parameter of [predict].  The branch of the
    [if constexpr] is chosen at compile time by
    [vague::utility::FunctionTypeCallableWith] (of [vague/utility.hpp],
    which is not among the sources); its verdict is the constructor:
    [DirectDynamics] is a callable taken on the first branch, invoked on the
    estimate itself, [SampledDynamics] one taken on the second, invoked on a
    sigma-point set. *)
Inductive Dynamics : Type :=
  | DirectDynamics (call : Belief n -> F -> Belief n)
  | SampledDynamics (call : WeightedSamples F n k -> F -> WeightedSamples F n k).

(** The [ProcessNoise] template parameter of [predict]: called with [dt],
    the mean (behind a const reference) and the covariance; its result is
    assigned to [estimate.covariance]. *)
Definition ProcessNoise : Type := F -> 'cV[F]_n -> 'M[F]_n -> 'M[F]_n.

(** [StateEstimator::predict]. *)
Definition predict (t : int) (dynamics : Dynamics) (process_noise : ProcessNoise) :
    M Self unit :=
  get >>= fun self =>
  let duration := t - time self in
  if duration == 0 then ret tt
  else if duration < 0 then throw (runtime_error "Unable to wind back time")
  else
    set_time t >>
    let dt := duration_cast duration in
    match dynamics with
    | DirectDynamics call =>
        get >>= fun self =>
        invoke dynamics_call (call (estimate self) dt) >>= fun propagated =>
        set_estimate propagated
    | SampledDynamics call =>
        get >>= fun self =>
        invoke sample_call (sample (estimate self)) >>= fun sigma_points =>
        invoke dynamics_call (call sigma_points dt) >>= fun propagated =>
        set_estimate (statistics propagated)
    end >>
    get >>= fun self =>
    invoke process_noise_call
      (process_noise dt (mean (estimate self)) (covariance (estimate self)))
      >>= fun inflated =>
    set_covariance inflated.

(** The [Observer] template parameter of [predict_observation], with
    [Observer::To::N = m] and the pack [AugmentedState...] as [Aug]; the
    constructor is again the verdict of [FunctionTypeCallableWith].  A
    callable taken on the first branch also has a [jacobian] member. *)
Inductive Observer (m : nat) (Aug : Type) : Type :=
  | DirectObserver (call : Belief n -> Aug -> Belief m)
                   (jacobian : Belief n -> Aug -> 'M[F]_(m, n))
  | SampledObserver (call : WeightedSamples F n k -> Aug -> WeightedSamples F m k).

(** [StateEstimator::predict_observation]. *)
Definition predict_observation m Aug (observer : Observer m Aug)
    (augmented_state : Aug) : M Self (PredictedObservation F n m) :=
  get >>= fun self =>
  match observer with
  | DirectObserver call jacobian =>
      invoke observer_call (call (estimate self) augmented_state) >>= fun predicted =>
      invoke jacobian_call (jacobian (estimate self) augmented_state) >>= fun J =>
      ret (MkPredictedObservation predicted (covariance (estimate self) *m J^T))
  | SampledObserver call =>
      invoke sample_call (sample (estimate self)) >>= fun sigma_points =>
      let: (state_mean, state_centered_samples) :=
        mean_centered_samples sigma_points in
      invoke observer_call (call sigma_points augmented_state)
        >>= fun predicted_obs_sigma_points =>
      let: (predicted_obs_mean, predicted_obs_centered_samples) :=
        mean_centered_samples predicted_obs_sigma_points in
      ret (MkPredictedObservation
             (statistics predicted_obs_sigma_points)
             (state_centered_samples *m diag_mx (weights sigma_points)^T
                *m predicted_obs_centered_samples^T))
  end.

(** [StateEstimator::assimilate]. *)
Definition assimilate m (predicted_observation : PredictedObservation F n m)
    (observation : Belief m) : M Self unit :=
  let observation_covariance_sum :=
    covariance (base predicted_observation) + covariance observation in
  let kalman_gain :=
    cross_covariance predicted_observation *m lu_inverse observation_covariance_sum in
  get >>= fun self =>
  set_mean (mean (estimate self)
            + kalman_gain *m (mean observation - mean (base predicted_observation))) >>
  get >>= fun self =>
  set_covariance (covariance (estimate self)
                  - kalman_gain *m observation_covariance_sum *m kalman_gain^T).

(** [TimeDependentAdditiveProcessNoise::operator()]: what the call returns
    and what it leaves in its two reference arguments.  The covariance is
    updated in place by [+=] and a reference to it is returned; the mean is
    an unnamed const reference. *)
Record process_noise_effect : Type := MkProcessNoiseEffect {
  returned : 'M[F]_n;
  mean_after : 'cV[F]_n;
  covariance_after : 'M[F]_n
}.

Definition TimeDependentAdditiveProcessNoise_call
    (self : TimeDependentAdditiveProcessNoise F n)
    (dt : F) (mu : 'cV[F]_n) (covariance : 'M[F]_n) : process_noise_effect :=
  let covariance' := covariance + dt *: process_noise_per_second self in
  MkProcessNoiseEffect covariance' mu covariance'.

(** The strategy as the [ProcessNoise] argument of [predict]. *)
Definition as_process_noise (self : TimeDependentAdditiveProcessNoise F n) :
    ProcessNoise :=
  fun dt mu covariance =>
    returned (TimeDependentAdditiveProcessNoise_call self dt mu covariance).

End Estimator.

(** ** Linear models, sequences of operations *)

Section Models.

Variable F : fieldType.
Variables n k : nat.

(** A linear dynamics model with transition matrix [A], as a callable taken
    on the direct branch: it maps mean [m], covariance [P] to [A m],
    [A P A^T]. *)
Definition linear_dynamics (A : 'M[F]_n) :
    MeanAndCovariance F n -> F -> MeanAndCovariance F n :=
  fun belief _ =>
    MkMeanAndCovariance (A *m mean belief) (A *m covariance belief *m A^T).

(** The same linear map as a callable on sigma-point sets: applied to every
    sample, the weights kept. *)
Definition linear_map_samples m (A : 'M[F]_(m, n)) (Aug : Type) :
    WeightedSamples F n k -> Aug -> WeightedSamples F m k :=
  fun sp _ => MkWeightedSamples (A *m samples sp) (weights sp).

(** A linear observation map [H], as a callable taken on the direct branch,
    and its Jacobian, which is [H] everywhere. *)
Definition linear_observer m (H : 'M[F]_(m, n)) (Aug : Type) :
    MeanAndCovariance F n -> Aug -> MeanAndCovariance F m :=
  fun belief _ =>
    MkMeanAndCovariance (H *m mean belief) (H *m covariance belief *m H^T).

Definition linear_jacobian m (H : 'M[F]_(m, n)) (Aug : Type) :
    MeanAndCovariance F n -> Aug -> 'M[F]_(m, n) :=
  fun _ _ => H.

(** A matrix equal to its transpose. *)
Definition symmetric (A : 'M[F]_n) : Prop := A^T = A.

Variable sample : MeanAndCovariance F n -> WeightedSamples F n k.
Variable lu_inverse : forall m : nat, 'M[F]_m -> 'M[F]_m.
Variable seconds_per_tick : F.

(** One call of a member function on the estimator, with its arguments. *)
Inductive operation : Type :=
  | Predict (t : int) (dynamics : Dynamics F n k) (process_noise : ProcessNoise F n)
  | PredictObservation (m : nat) (Aug : Type) (observer : Observer F n k m Aug)
                       (augmented_state : Aug)
  | Assimilate (m : nat) (predicted_observation : PredictedObservation F n m)
               (observation : MeanAndCovariance F m).

Definition perform (op : operation) : M (StateEstimator F n) unit :=
  match op with
  | Predict t dynamics process_noise =>
      predict sample seconds_per_tick t dynamics process_noise
  | PredictObservation _ _ observer augmented_state =>
      predict_observation sample observer augmented_state >> ret tt
  | Assimilate _ predicted_observation observation =>
      assimilate lu_inverse predicted_observation observation
  end.

(** The states an estimator goes through under a sequence of calls, one
    after each call that returns; the sequence ends at the first call that
    throws. *)
Fixpoint lifetime (ops : seq operation) (self : StateEstimator F n) :
    seq (StateEstimator F n) :=
  match ops with
  | [::] => [::]
  | op :: ops' =>
      let r := perform op self in
      match completed r with
      | Returned _ => self_after r :: lifetime ops' (self_after r)
      | Threw _ => [::]
      end
  end.

End Models.

(** ** A one-dimensional estimator over the rationals *)

Section ScalarScenario.

(** A belief over a one-dimensional space: mean [mu], variance [P]. *)
Definition scalar_belief (mu P : rat) : MeanAndCovariance rat 1 :=
  MkMeanAndCovariance mu%:M P%:M.

(** The estimator of the scalar scenario: mean 0, covariance 1. *)
Definition scalar_prior (t0 : int) : StateEstimator rat 1 :=
  MkStateEstimator t0 (scalar_belief 0 1).

(** What the identity observer predicts from it: mean 0, covariance 1,
    cross-covariance 1. *)
Definition scalar_predicted : PredictedObservation rat 1 1 :=
  MkPredictedObservation (scalar_belief 0 1) 1%:M.

(** The measurement: mean 5, covariance 1. *)
Definition scalar_observation : MeanAndCovariance rat 1 := scalar_belief 5 1.

(** The exact inverse, in the place of the LU solver. *)
Definition exact_inverse (m : nat) (A : 'M[rat]_m) : 'M[rat]_m := invmx A.

(** The cubature points of a one-dimensional belief of unit variance: the
    mean plus one and the mean minus one, with weight one half each. *)
Definition unit_cubature (b : MeanAndCovariance rat 1) : WeightedSamples rat 1 2 :=
  MkWeightedSamples
    (\matrix_(i < 1, j < 2) (if j == 0 then mean b i 0 + 1 else mean b i 0 - 1))
    (const_mx (1 / 2)).

End ScalarScenario.

(** ** Construction, measurement updates and invariants of a run *)

Section Usage.

Variable F : fieldType.
Variables n k : nat.
Variable sample : MeanAndCovariance F n -> WeightedSamples F n k.
Variable lu_inverse : forall m : nat, 'M[F]_m -> 'M[F]_m.
Variable seconds_per_tick : F.

(** [StateEstimator::StateEstimator(initial_time, initial_estimate)]: both
    members are initialised from the arguments. *)
Definition StateEstimator_init (initial_time : int)
    (initial_estimate : MeanAndCovariance F n) : StateEstimator F n :=
  MkStateEstimator initial_time initial_estimate.

(** The measurement update as the caller runs it: [predict_observation],
    then [assimilate] with what it returned. *)
Definition observe_and_assimilate m (Aug : Type) (observer : Observer F n k m Aug)
    (augmented_state : Aug) (observation : MeanAndCovariance F m) :
    M (StateEstimator F n) unit :=
  predict_observation sample observer augmented_state
    >>= fun predicted_observation =>
  assimilate lu_inverse predicted_observation observation.

(** The target times of the [predict] calls of a sequence, in order. *)
Fixpoint predict_targets (ops : seq (operation F n k)) : seq int :=
  match ops with
  | [::] => [::]
  | Predict t _ _ :: ops' => t :: predict_targets ops'
  | _ :: ops' => predict_targets ops'
  end.

(** A dynamics callable of the direct branch that returns a symmetric
    covariance when given one.  On the sampled branch the covariance comes
    from [statistics()] and nothing is asked of the callable. *)
Definition dynamics_keeps_symmetry (dynamics : Dynamics F n k) : Prop :=
  match dynamics with
  | DirectDynamics call =>
      forall belief dt,
        symmetric (covariance belief) -> symmetric (covariance (call belief dt))
  | SampledDynamics _ => True
  end.

(** A process noise that returns a symmetric covariance when given one. *)
Definition noise_keeps_symmetry (process_noise : ProcessNoise F n) : Prop :=
  forall dt mu P, symmetric P -> symmetric (process_noise dt mu P).

(** The calls under which the covariance of the estimate stays symmetric:
    [predict] with such callables, [predict_observation], and [assimilate]
    when the sum of the two observation covariances is symmetric and
    invertible. *)
Definition keeps_symmetry (op : operation F n k) : Prop :=
  match op with
  | Predict _ dynamics process_noise =>
      dynamics_keeps_symmetry dynamics /\ noise_keeps_symmetry process_noise
  | PredictObservation _ _ _ _ => True
  | Assimilate _ predicted_observation observation =>
      let S := covariance (base predicted_observation) + covariance observation in
      symmetric S /\ S \in unitmx
  end.

Fixpoint all_keep_symmetry (ops : seq (operation F n k)) : Prop :=
  match ops with
  | [::] => True
  | op :: ops' => keeps_symmetry op /\ all_keep_symmetry ops'
  end.

(** The estimate [predict] holds between its call of the dynamics and its
    call of the process noise, and the callables it has invoked by then:
    on the first branch the dynamics, on the second the sampler and then the
    dynamics. *)
Definition propagated_estimate (dynamics : Dynamics F n k) (dt : F)
    (belief : MeanAndCovariance F n) : MeanAndCovariance F n :=
  match dynamics with
  | DirectDynamics call => call belief dt
  | SampledDynamics call => statistics (call (sample belief) dt)
  end.

Definition propagation_calls (dynamics : Dynamics F n k) : seq callee :=
  match dynamics with
  | DirectDynamics _ => [:: dynamics_call]
  | SampledDynamics _ => [:: sample_call; dynamics_call]
  end.

End Usage.

(** ** A run of the one-dimensional estimator *)

Section ScalarRun.

(** A linear model of transition 2 and an additive noise of rate 3. *)
Definition scalar_dynamics : Dynamics rat 1 2 :=
  DirectDynamics 2 (linear_dynamics 2%:M).

Definition scalar_noise : ProcessNoise rat 1 :=
  as_process_noise (MkTimeDependentAdditiveProcessNoise 3%:M).

(** The identity observer. *)
Definition scalar_observer : Observer rat 1 2 1 unit :=
  DirectObserver 2 (linear_observer 1%:M (Aug:=unit))
                   (linear_jacobian 1%:M (Aug:=unit)).

(** Predict to tick 4, observe, assimilate, predict to tick 7. *)
Definition scalar_run : seq (operation rat 1 2) :=
  [:: Predict 4 scalar_dynamics scalar_noise;
      PredictObservation scalar_observer tt;
      Assimilate 2 scalar_predicted scalar_observation;
      Predict 7 scalar_dynamics scalar_noise].

End ScalarRun.

(** ** Callables that throw *)

Section Fallible.

Variable F : fieldType.
Variables n k : nat.
Variable sample : MeanAndCovariance F n -> WeightedSamples F n k.
Variable seconds_per_tick : F.

(** What the caller's callables throw. *)
Variable E : Type.

(** How a call of one of the caller's callables ends.  It returns a value,
    or an exception leaves it; [remains] is then the value held by the object
    the callable was handed by reference (the value it had before the call,
    for a callable that does not write to its argument). *)
Inductive called (A B : Type) : Type :=
  | Gives (a : A)
  | Raises (e : E) (remains : B).

Arguments Gives {A B} a.
Arguments Raises {A B} e remains.

(** The [Dynamics] template parameter of [predict], for callables that may
    throw.  On the first branch the callable is handed [estimate] itself;
    on the second a temporary sigma-point set, which is gone when an
    exception leaves the call. *)
Inductive FallibleDynamics : Type :=
  | FallibleDirect
      (call : MeanAndCovariance F n -> F ->
              called (MeanAndCovariance F n) (MeanAndCovariance F n))
  | FallibleSampled
      (call : WeightedSamples F n k -> F -> called (WeightedSamples F n k) unit).

(** The [ProcessNoise] template parameter, likewise: it is handed the mean
    behind a const reference and [estimate.covariance] itself. *)
Definition FallibleProcessNoise : Type :=
  F -> 'cV[F]_n -> 'M[F]_n -> called 'M[F]_n 'M[F]_n.

(** How a call of [predict] ends: it returns, it throws its own
    [std::runtime_error], or an exception of a callable passes through it
    ([predict] has no handler and is not [noexcept]). *)
Inductive ending : Type :=
  | Finished
  | TimeOrder (e : exception)
  | Propagated (e : E).

Record fallible_outcome : Type := MkFallibleOutcome {
  ended : ending;
  object_after : StateEstimator F n;
  invoked : seq callee
}.

(** The first assignment to [estimate] in [predict]: the new estimate, or
    the exception of the dynamics with what it left in [estimate]; and the
    callables invoked on the way. *)
Definition fallible_propagation (dynamics : FallibleDynamics) (dt : F)
    (belief : MeanAndCovariance F n) :
    called (MeanAndCovariance F n) (MeanAndCovariance F n) * seq callee :=
  match dynamics with
  | FallibleDirect call => (call belief dt, [:: dynamics_call])
  | FallibleSampled call =>
      (match call (sample belief) dt with
       | Gives propagated => Gives (statistics propagated)
       | Raises e _ => Raises e belief
       end,
       [:: sample_call; dynamics_call])
  end.

(** [StateEstimator::predict], with callables that may throw.  The two
    tests come first; [time = t] is assigned before any callable is
    invoked, [estimate] after the dynamics has returned, and
    [estimate.covariance] after the process noise has returned. *)
Definition predict_fallible (t : int) (dynamics : FallibleDynamics)
    (process_noise : FallibleProcessNoise) (self : StateEstimator F n) :
    fallible_outcome :=
  let duration := t - time self in
  if duration == 0 then MkFallibleOutcome Finished self [::]
  else if duration < 0 then
    MkFallibleOutcome (TimeOrder (runtime_error "Unable to wind back time"))
      self [::]
  else
    let dt := duration_cast seconds_per_tick duration in
    let: (propagation, log) := fallible_propagation dynamics dt (estimate self) in
    match propagation with
    | Raises e remains => MkFallibleOutcome (Propagated e) (MkStateEstimator t remains) log
    | Gives propagated =>
        let log' := log ++ [:: process_noise_call] in
        match process_noise dt (mean propagated) (covariance propagated) with
        | Raises e remains =>
            MkFallibleOutcome (Propagated e)
              (MkStateEstimator t (MkMeanAndCovariance (mean propagated) remains))
              log'
        | Gives inflated =>
            MkFallibleOutcome Finished
              (MkStateEstimator t (MkMeanAndCovariance (mean propagated) inflated))
              log'
        end
    end.


(** Callables that return, as callables that may throw. *)
Definition returning_dynamics (dynamics : Dynamics F n k) : FallibleDynamics :=
  match dynamics with
  | DirectDynamics call => FallibleDirect (fun belief dt => Gives (call belief dt))
  | SampledDynamics call => FallibleSampled (fun sp dt => Gives (call sp dt))
  end.

Definition returning_noise (process_noise : ProcessNoise F n) :
    FallibleProcessNoise :=
  fun dt mu P => Gives (process_noise dt mu P).

(** The outcome of a member function in the monad, as an outcome here. *)
Definition as_fallible_outcome (r : outcome (StateEstimator F n) unit) :
    fallible_outcome :=
  MkFallibleOutcome
    (match completed r with Returned _ => Finished | Threw e => TimeOrder e end)
    (self_after r) (calls r).

End Fallible.

Arguments Gives {E A B} a.
Arguments Raises {E A B} e remains.
Arguments Finished {E}.
Arguments TimeOrder {E} e.
Arguments Propagated {E} e.

(** ** A two-dimensional estimator over the rationals *)

Section PlanarScenario.

(** A covariance with correlated components: 2 on the diagonal, 1 off it. *)
Definition planar_covariance : 'M[rat]_2 :=
  \matrix_(i, j) (if i == j then 2 else 1).

(** Position and velocity over one time unit: ones on and above the
    diagonal.  Not symmetric. *)
Definition planar_transition : 'M[rat]_2 :=
  \matrix_(i, j) (if (i <= j)%N then 1 else 0).

(** A noise rate with correlated components. *)
Definition planar_noise_rate : 'M[rat]_2 :=
  \matrix_(i, j) (if i == j then 3 else 1).

Definition planar_belief : MeanAndCovariance rat 2 :=
  MkMeanAndCovariance (const_mx 1) planar_covariance.

Definition planar_prior (t0 : int) : StateEstimator rat 2 :=
  MkStateEstimator t0 planar_belief.

(** A predicted observation of both components, and a measurement of them
    with unit noise. *)
Definition planar_predicted : PredictedObservation rat 2 2 :=
  MkPredictedObservation planar_belief planar_transition.

Definition planar_observation : MeanAndCovariance rat 2 :=
  MkMeanAndCovariance (const_mx 5) 1%:M.

(** A predicted observation of one quantity, of variance 2 and covariance 1
    with each component of the state. *)
Definition planar_scalar_predicted : PredictedObservation rat 2 1 :=
  MkPredictedObservation (scalar_belief 0 2) (const_mx 1).

(** Four sigma points, all at the mean, of equal weight. *)
Definition planar_sampler (b : MeanAndCovariance rat 2) : WeightedSamples rat 2 4 :=
  MkWeightedSamples (mean b *m const_mx 1) (const_mx (1 / 4)).

Definition planar_dynamics : Dynamics rat 2 4 :=
  DirectDynamics 4 (linear_dynamics planar_transition).

Definition planar_noise : ProcessNoise rat 2 :=
  as_process_noise (MkTimeDependentAdditiveProcessNoise planar_noise_rate).

(** Predict to tick 4, assimilate, predict to tick 7. *)
Definition planar_run : seq (operation rat 2 4) :=
  [:: Predict 4 planar_dynamics planar_noise;
      Assimilate 4 planar_predicted planar_observation;
      Predict 7 planar_dynamics planar_noise].

(** A dynamics that throws the exception 7 and leaves its argument alone,
    and a process noise that throws 9 likewise. *)
Definition throwing_dynamics : FallibleDynamics rat 2 4 nat :=
  FallibleDirect 4 (fun belief _ => Raises 7%N belief).

Definition throwing_noise : FallibleProcessNoise rat 2 nat :=
  fun _ _ P => Raises 9%N P.

End PlanarScenario.

(** * Properties *)

Section EstimatorTheory.

Variable F : fieldType.
Variables n k : nat.
Variable sample : MeanAndCovariance F n -> WeightedSamples F n k.
Variable lu_inverse : forall m : nat, 'M[F]_m -> 'M[F]_m.
Variable seconds_per_tick : F.

Local Notation Self := (StateEstimator F n).

(** [lu_inverse] is the matrix inverse wherever there is one. *)
Hypothesis lu_inverseP :
  forall m (A : 'M[F]_m), A \in unitmx -> lu_inverse A = invmx A.

(** What [assimilate] does, whatever [lu_inverse] returns. *)
Lemma assimilate_unfold m (po : PredictedObservation F n m)
    (obs : MeanAndCovariance F m) (s : Self) :
  let S := covariance (base po) + covariance obs in
  let K := cross_covariance po *m lu_inverse S in
  assimilate lu_inverse po obs s =
    MkOutcome (Returned tt)
      (MkStateEstimator (time s)
         (MkMeanAndCovariance
            (mean (estimate s) + K *m (mean obs - mean (base po)))
            (covariance (estimate s) - K *m S *m K^T)))
      [::].
Proof. by []. Qed.

(** C1. [assimilate(predicted_observation, observation)], with
    [S = predicted_observation.covariance + observation.covariance]
    invertible and [K = predicted_observation.cross_covariance * S^-1]:
    the call returns, the mean becomes
    [mean + K * (observation.mean - predicted_observation.mean)], the
    covariance becomes [covariance - K * S * K^T], the time is the one
    before the call, and none of the caller's callables is invoked. *)
Theorem assimilate_kalman_update m (po : PredictedObservation F n m)
    (obs : MeanAndCovariance F m) (s : Self) :
  let S := covariance (base po) + covariance obs in
  let K := cross_covariance po *m invmx S in
  S \in unitmx ->
  assimilate lu_inverse po obs s =
    MkOutcome (Returned tt)
      (MkStateEstimator (time s)
         (MkMeanAndCovariance
            (mean (estimate s) + K *m (mean obs - mean (base po)))
            (covariance (estimate s) - K *m S *m K^T)))
      [::].
Proof. by move=> S K S_unit; rewrite assimilate_unfold lu_inverseP. Qed.

(** The two tests at the head of [predict], on the target time. *)
Lemma earlier_duration (t now : int) :
  t < now -> ((t - now == 0) = false) * ((t - now < 0) = true).
Proof. by move=> lt_t; rewrite subr_lt0 lt_t subr_eq0 (lt_eqF lt_t). Qed.

Lemma later_duration (t now : int) :
  now < t -> ((t - now == 0) = false) * ((t - now < 0) = false).
Proof.
move=> lt_now; rewrite subr_eq0 (gt_eqF lt_now) subr_lt0.
by rewrite ltNge (ltW lt_now).
Qed.

(** C2. [predict(t, dynamics, process_noise)] with [t] strictly earlier
    than the estimator's time throws the time-order error
    [std::runtime_error("Unable to wind back time")]; the estimator after
    the call is the estimator before it, and no callable was invoked. *)
Theorem predict_earlier_throws (t : int) (dynamics : Dynamics F n k)
    (process_noise : ProcessNoise F n) (s : Self) :
  t < time s ->
  predict sample seconds_per_tick t dynamics process_noise s =
    MkOutcome (Threw (runtime_error "Unable to wind back time")) s [::].
Proof.
by move=> lt_t; rewrite /predict /bind /= !(earlier_duration lt_t).
Qed.

(** C5. [predict(t, dynamics, process_noise)] with [t] equal to the
    estimator's time returns, invokes neither [dynamics] nor
    [process_noise] (the call log is empty), and leaves the estimator, time
    and estimate, as it was. *)
Theorem predict_same_time_noop (dynamics : Dynamics F n k)
    (process_noise : ProcessNoise F n) (s : Self) :
  predict sample seconds_per_tick (time s) dynamics process_noise s =
    MkOutcome (Returned tt) s [::].
Proof. by rewrite /predict /bind /= subrr eqxx. Qed.

(** C7. Invoking [TimeDependentAdditiveProcessNoise], constructed with the
    rate matrix [Q], on [dt], a mean and a covariance returns
    [covariance + dt * Q]; the mean it was given is unchanged. *)
Theorem process_noise_additive (Q : 'M[F]_n) (dt : F) (mu : 'cV[F]_n)
    (P : 'M[F]_n) :
  let r := TimeDependentAdditiveProcessNoise_call
             (MkTimeDependentAdditiveProcessNoise Q) dt mu P in
  returned r = P + dt *: Q /\ mean_after r = mu.
Proof. by []. Qed.

(** C8. [predict_observation(observer, augmented_state...)] returns a
    [PredictedObservation], for every observer and arguments, and the
    estimator after the call is the estimator before it. *)
Theorem predict_observation_pure m (Aug : Type) (observer : Observer F n k m Aug)
    (augmented_state : Aug) (s : Self) :
  let r := predict_observation sample observer augmented_state s in
  (exists po : PredictedObservation F n m, completed r = Returned po)
  /\ self_after r = s.
Proof.
by case: observer => [call jacobian|call] /=; split=> //; eexists.
Qed.


(** The statistics of the image of a sample set under a linear map are the
    image of its statistics. *)
Lemma statistics_linear_map m (H : 'M[F]_(m, n)) (Aug : Type)
    (sp : WeightedSamples F n k) (a : Aug) :
  statistics (linear_map_samples H sp a) = linear_observer H (statistics sp) a.
Proof.
rewrite /statistics /linear_observer /mean_centered_samples /=.
by rewrite -!mulmxA -mulmxBr trmx_mul !mulmxA.
Qed.

(** C4. Where the sigma points of the current estimate reproduce its mean
    and covariance (an exact quadrature), a linear map gives the same
    result on the sampled branch as on the direct branch: after [predict],
    the same completion and the same estimator (time, mean, covariance);
    from [predict_observation], the same [PredictedObservation] (mean,
    covariance, cross-covariance) and the same estimator. *)
Theorem sampled_direct_agree_on_linear (s : Self) :
  statistics (sample (estimate s)) = estimate s ->
  (forall (A : 'M[F]_n) (t : int) (process_noise : ProcessNoise F n),
     let sampled := predict sample seconds_per_tick t
                      (SampledDynamics (linear_map_samples A (Aug:=F)))
                      process_noise s in
     let direct := predict sample seconds_per_tick t
                     (DirectDynamics k (linear_dynamics A)) process_noise s in
     completed sampled = completed direct
     /\ self_after sampled = self_after direct)
  /\
  (forall m (H : 'M[F]_(m, n)) (Aug : Type) (a : Aug),
     let sampled := predict_observation sample
                      (SampledObserver (linear_map_samples H (Aug:=Aug))) a s in
     let direct := predict_observation sample
                     (DirectObserver k (linear_observer H (Aug:=Aug))
                                       (linear_jacobian H (Aug:=Aug))) a s in
     completed sampled = completed direct
     /\ self_after sampled = self_after direct).
Proof.
move=> exact_s; split.
- move=> A t process_noise; rewrite /predict /bind /=.
  case: (t - time s == 0) => //=; case: (t - time s < 0) => //=.
  split=> //; have := statistics_linear_map A (sample (estimate s))
    (duration_cast seconds_per_tick (t - time s)).
  rewrite exact_s /statistics /mean_centered_samples /linear_observer /=.
  by case=> -> ->.
- move=> m H Aug a /=; split=> //.
  rewrite /predict_observation /bind /=; congr (Returned (MkPredictedObservation _ _)).
    by rewrite statistics_linear_map exact_s.
  rewrite -[in RHS]exact_s /statistics /mean_centered_samples /=.
  by rewrite -!mulmxA -mulmxBr trmx_mul !mulmxA.
Qed.

(** Each member function leaves a time that is not earlier. *)
Lemma perform_time (op : operation F n k) (s : Self) (u : unit) :
  completed (perform sample lu_inverse seconds_per_tick op s) = Returned u ->
  time s <= time (self_after (perform sample lu_inverse seconds_per_tick op s)).
Proof.
case: op => [t dynamics process_noise|m Aug observer a|m po obs] //=.
- rewrite /predict /bind /=.
  case: eqP => [_ //|_]; rewrite subr_lt0.
  case: (ltP t (time s)) => [_ //|le_t _].
  by case: dynamics => call /=.
- by case: observer => [call jacobian|call] /=.
Qed.

(** C9. The time of an estimator never decreases: along every sequence of
    calls of [predict], [predict_observation] and [assimilate] that return,
    the times of the successive states, from the initial one on, are in
    non-decreasing order. *)
Theorem time_monotone (ops : seq (operation F n k)) (s : Self) :
  sorted (fun t1 t2 : int => t1 <= t2)
    [seq time s' | s' <- s :: lifetime sample lu_inverse seconds_per_tick ops s].
Proof.
elim: ops s => [//|op ops IH] s /=.
have := @perform_time op s.
move: (IH (self_after (perform sample lu_inverse seconds_per_tick op s))).
by case: (completed _) => [u|e] //= IHs le_s; rewrite (le_s u).
Qed.

(** Subtracting a congruence [K S K^T] by a symmetric [S] keeps a matrix
    symmetric. *)
Lemma symmetric_sub_congruence m (P : 'M[F]_n) (K : 'M[F]_(n, m)) (S : 'M[F]_m) :
  symmetric P -> symmetric S -> symmetric (P - K *m S *m K^T).
Proof.
rewrite /symmetric => symP symS.
by rewrite linearB /= !trmx_mul trmxK symP symS mulmxA.
Qed.

(** C10. [assimilate] keeps the covariance symmetric: if the covariance of
    the estimate is symmetric, and
    [S = predicted_observation.covariance + observation.covariance] is
    symmetric and invertible, then the covariance after the call, which is
    [covariance - K * S * K^T] with [K = cross_covariance * S^-1], is
    symmetric. *)
Theorem assimilate_symmetric m (po : PredictedObservation F n m)
    (obs : MeanAndCovariance F m) (s : Self) :
  let S := covariance (base po) + covariance obs in
  let K := cross_covariance po *m invmx S in
  let P' := covariance (estimate (self_after (assimilate lu_inverse po obs s))) in
  symmetric (covariance (estimate s)) ->
  symmetric S ->
  S \in unitmx ->
  P' = covariance (estimate s) - K *m S *m K^T /\ symmetric P'.
Proof.
move=> S K P' symP symS S_unit.
have ->: P' = covariance (estimate s) - K *m S *m K^T.
  by rewrite /P' assimilate_unfold lu_inverseP.
by split=> //; apply: symmetric_sub_congruence.
Qed.

End EstimatorTheory.

(** ** The scalar scenario and instances of the theorems above *)

Section ScalarTheory.

Lemma exact_inverseP m (A : 'M[rat]_m) :
  A \in unitmx -> exact_inverse A = invmx A.
Proof. by []. Qed.

Lemma scalar_sum_unit : (1%:M + 1%:M : 'M[rat]_1) \in unitmx.
Proof. by rewrite -raddfD /= unitmxE det_scalar unitfE. Qed.

(** The predicted observation of the scenario is the one
    [predict_observation] returns for the identity observer. *)
Lemma scalar_predicted_identity (k : nat)
    (sample : MeanAndCovariance rat 1 -> WeightedSamples rat 1 k) (t0 : int) :
  completed (predict_observation sample
               (DirectObserver k (linear_observer 1%:M (Aug:=unit))
                                 (linear_jacobian 1%:M (Aug:=unit)))
               tt (scalar_prior t0))
  = Returned scalar_predicted.
Proof.
rewrite /predict_observation /bind /= /linear_observer /linear_jacobian /=.
by rewrite !mul1mx !trmx1.
Qed.

(** C6. One-dimensional state, estimate mean 0 and covariance 1; one
    [assimilate] call with the predicted observation of the identity
    observer (mean 0, covariance 1, cross-covariance 1) and an observation
    of mean 5 and covariance 1 leaves mean 5/2 and covariance 1/2, in exact
    (rational) arithmetic. *)
Theorem scalar_scenario (lu_inverse : forall m : nat, 'M[rat]_m -> 'M[rat]_m)
    (t0 : int) :
  (forall m (A : 'M[rat]_m), A \in unitmx -> lu_inverse m A = invmx A) ->
  assimilate lu_inverse scalar_predicted scalar_observation (scalar_prior t0) =
    MkOutcome (Returned tt)
      (MkStateEstimator t0 (scalar_belief (5 / 2) (1 / 2))) [::].
Proof.
move=> lu_inverseP; rewrite assimilate_unfold /= lu_inverseP ?scalar_sum_unit //.
rewrite /scalar_belief -raddfD /= invmx_scalar mul1mx tr_scalar_mx.
by rewrite -raddfB /= -!scalar_mxM -raddfD -raddfB.
Qed.

Lemma half_sum (mu : rat) : (mu + 1) * (1 / 2) + (mu - 1) * (1 / 2) = mu.
Proof.
rewrite -mulrDl addrACA subrr addr0 -mulr2n -mulr_natr -mulrA.
by rewrite (_ : 2%:R * (1 / 2) = 1 :> rat) ?mulr1.
Qed.

(** The two cubature points of a unit-variance belief reproduce its mean
    and its covariance. *)
Lemma unit_cubature_exact (mu : rat) :
  statistics (unit_cubature (scalar_belief mu 1)) = scalar_belief mu 1.
Proof.
rewrite /statistics /mean_centered_samples /scalar_belief /=.
have mean_eq :
    (\matrix_(i < 1, j < 2)
       (if j == 0 then (mu%:M : 'cV_1) i 0 + 1 else (mu%:M : 'cV_1) i 0 - 1))
    *m (const_mx (1 / 2) : 'cV[rat]_2) = mu%:M.
  apply/matrixP=> i j; rewrite !ord1 !mxE !big_ord_recl big_ord0 !mxE /=.
  by rewrite mulr1n addr0 half_sum.
rewrite mean_eq; congr MkMeanAndCovariance.
apply/matrixP=> i j; rewrite !ord1 !mxE !big_ord_recl big_ord0 !mxE /=.
rewrite !big_ord_recl !big_ord0 !mxE /= !mulr1n !mulr0n !mulr0 !mulr1 !addr0.
rewrite !big_ord_recl !big_ord0 !mxE /= !mulr1n !mulr1 !addr0.
by rewrite [mu + 1 - mu]addrAC [mu - 1 - mu]addrAC subrr !add0r.
Qed.

Lemma scalar_symmetric (x : rat) : symmetric (x%:M : 'M[rat]_1).
Proof. exact: tr_scalar_mx. Qed.

(** The Kalman update, on the scalar scenario with the exact inverse. *)
Lemma assimilate_kalman_update_witness :
  let S := (1%:M + 1%:M : 'M[rat]_1) in
  let K := (1%:M : 'M[rat]_1) *m invmx S in
  S \in unitmx /\
  assimilate exact_inverse scalar_predicted scalar_observation (scalar_prior 0) =
    MkOutcome (Returned tt)
      (MkStateEstimator 0
         (MkMeanAndCovariance (0%:M + K *m (5%:M - 0%:M))
                              (1%:M - K *m S *m K^T)))
      [::].
Proof.
split; first exact: scalar_sum_unit.
exact: (assimilate_kalman_update exact_inverseP (po:=scalar_predicted)
          (obs:=scalar_observation) (scalar_prior 0) scalar_sum_unit).
Defined.

(** Winding back from tick 5 to tick 3. *)
Lemma predict_earlier_throws_witness :
  (3 : int) < 5 /\
  predict unit_cubature 1 3 (DirectDynamics 2 (linear_dynamics 1%:M))
    (as_process_noise (MkTimeDependentAdditiveProcessNoise 1%:M))
    (scalar_prior 5) =
    MkOutcome (Threw (runtime_error "Unable to wind back time"))
      (scalar_prior 5) [::].
Proof.
split; first by [].
exact: (predict_earlier_throws unit_cubature 1
          (DirectDynamics 2 (linear_dynamics 1%:M))
          (as_process_noise (MkTimeDependentAdditiveProcessNoise 1%:M))
          (s:=scalar_prior 5) (t:=3) isT).
Defined.


(** The scalar estimator with its cubature points, a map of slope 2. *)
Lemma sampled_direct_agree_on_linear_witness :
  statistics (unit_cubature (estimate (scalar_prior 0))) = estimate (scalar_prior 0)
  /\ (let sampled := predict unit_cubature 1 4
                       (SampledDynamics (linear_map_samples 2%:M (Aug:=rat)))
                       (as_process_noise (MkTimeDependentAdditiveProcessNoise 3%:M))
                       (scalar_prior 0) in
      let direct := predict unit_cubature 1 4
                      (DirectDynamics 2 (linear_dynamics 2%:M))
                      (as_process_noise (MkTimeDependentAdditiveProcessNoise 3%:M))
                      (scalar_prior 0) in
      completed sampled = completed direct
      /\ self_after sampled = self_after direct)
  /\ (let sampled := predict_observation unit_cubature
                       (SampledObserver (linear_map_samples (2%:M : 'M[rat]_1) (Aug:=unit)))
                       tt (scalar_prior 0) in
      let direct := predict_observation unit_cubature
                      (DirectObserver 2 (linear_observer (2%:M : 'M[rat]_1) (Aug:=unit))
                                        (linear_jacobian (2%:M : 'M[rat]_1) (Aug:=unit)))
                      tt (scalar_prior 0) in
      completed sampled = completed direct
      /\ self_after sampled = self_after direct).
Proof.
have exact0 := unit_cubature_exact 0.
have [agree_predict agree_observation] :=
  sampled_direct_agree_on_linear (sample:=unit_cubature) 1
    (s:=scalar_prior 0) exact0.
split; first exact: exact0.
split; first exact: agree_predict.
exact: agree_observation.
Defined.

(** The scalar scenario with the exact inverse. *)
Lemma scalar_scenario_witness :
  assimilate exact_inverse scalar_predicted scalar_observation (scalar_prior 0) =
    MkOutcome (Returned tt)
      (MkStateEstimator 0 (scalar_belief (5 / 2) (1 / 2))) [::].
Proof. exact: (scalar_scenario 0 exact_inverseP). Defined.

End ScalarTheory.

(** * Further properties *)

(** ** Sequencing *)

Section MonadTheory.

Variables St A B : Type.

(** A call that returns hands its result and the object to what follows;
    the logs are concatenated. *)
Lemma bind_returned (c : M St A) (k : A -> M St B) (s s' : St) (a : A)
    (l : seq callee) :
  c s = MkOutcome (Returned a) s' l ->
  (c >>= k) s =
    MkOutcome (completed (k a s')) (self_after (k a s')) (l ++ calls (k a s')).
Proof. by rewrite /bind => ->. Qed.

(** A call that throws ends the sequence. *)
Lemma bind_threw (c : M St A) (k : A -> M St B) (s s' : St) (e : exception)
    (l : seq callee) :
  c s = MkOutcome (Threw e) s' l -> (c >>= k) s = MkOutcome (Threw e) s' l.
Proof. by rewrite /bind => ->. Qed.

End MonadTheory.

(** ** [TimeDependentAdditiveProcessNoise] *)

Section ProcessNoiseTheory.

Variable F : fieldType.
Variable n : nat.

(** Inflating twice is inflating once for the sum of the two durations. *)
Lemma as_process_noiseD (pn : TimeDependentAdditiveProcessNoise F n)
    (dt1 dt2 : F) (mu1 mu2 mu : 'cV[F]_n) (P : 'M[F]_n) :
  as_process_noise pn dt2 mu2 (as_process_noise pn dt1 mu1 P)
  = as_process_noise pn (dt1 + dt2) mu P.
Proof. by rewrite /as_process_noise /= -addrA -scalerDl. Qed.

(** The strategy keeps a symmetric covariance symmetric when its rate
    matrix is symmetric. *)
Lemma as_process_noise_symmetric (Q : 'M[F]_n) :
  symmetric Q ->
  noise_keeps_symmetry (as_process_noise (MkTimeDependentAdditiveProcessNoise Q)).
Proof.
move=> symQ dt mu P symP; rewrite /symmetric in symQ symP *.
by rewrite /as_process_noise /= linearD linearZ /= symP symQ.
Qed.

(** The call operator over successive calls on the same covariance object:
    the covariance argument holds the returned value after each call, the
    mean is never consulted, a zero duration changes nothing, and two calls
    in a row add up to one call for the sum of the durations. *)
Theorem process_noise_accumulates (pn : TimeDependentAdditiveProcessNoise F n)
    (dt1 dt2 : F) (mu1 mu2 mu : 'cV[F]_n) (P : 'M[F]_n) :
  let first := TimeDependentAdditiveProcessNoise_call pn dt1 mu1 P in
  let second :=
    TimeDependentAdditiveProcessNoise_call pn dt2 mu2 (covariance_after first) in
  [/\ covariance_after first = returned first,
      returned (TimeDependentAdditiveProcessNoise_call pn 0 mu P) = P
    & returned second
      = returned (TimeDependentAdditiveProcessNoise_call pn (dt1 + dt2) mu P)].
Proof.
split=> //=; first by rewrite scale0r addr0.
exact: as_process_noiseD.
Qed.

End ProcessNoiseTheory.

(** ** [predict] *)

Section PredictTheory.

Variable F : fieldType.
Variables n k : nat.
Variable sample : MeanAndCovariance F n -> WeightedSamples F n k.
Variable seconds_per_tick : F.

Local Notation Self := (StateEstimator F n).

(** [predict] to a later time, on either branch. *)
Lemma predict_later (t : int) (dynamics : Dynamics F n k)
    (process_noise : ProcessNoise F n) (s : Self) :
  time s < t ->
  let dt := duration_cast seconds_per_tick (t - time s) in
  let propagated := propagated_estimate sample dynamics dt (estimate s) in
  predict sample seconds_per_tick t dynamics process_noise s =
    MkOutcome (Returned tt)
      (MkStateEstimator t
         (MkMeanAndCovariance (mean propagated)
            (process_noise dt (mean propagated) (covariance propagated))))
      (propagation_calls dynamics ++ [:: process_noise_call]).
Proof.
move=> lt_t; rewrite /predict /bind /= !(later_duration lt_t).
by case: dynamics => call.
Qed.

Lemma predict_same (dynamics : Dynamics F n k)
    (process_noise : ProcessNoise F n) (s : Self) :
  predict sample seconds_per_tick (time s) dynamics process_noise s =
    MkOutcome (Returned tt) s [::].
Proof. by rewrite /predict /bind /= subrr eqxx. Qed.

Lemma predict_earlier (t : int) (dynamics : Dynamics F n k)
    (process_noise : ProcessNoise F n) (s : Self) :
  t < time s ->
  predict sample seconds_per_tick t dynamics process_noise s =
    MkOutcome (Threw (runtime_error "Unable to wind back time")) s [::].
Proof.
by move=> lt_t; rewrite /predict /bind /= !(earlier_duration lt_t).
Qed.

(** The three cases of [predict], by the order of [t] and the time. *)
Variant predict_case (t : int) (dynamics : Dynamics F n k)
    (process_noise : ProcessNoise F n) (s : Self) : Prop :=
  | PredictEarlier of t < time s
      & predict sample seconds_per_tick t dynamics process_noise s =
          MkOutcome (Threw (runtime_error "Unable to wind back time")) s [::]
  | PredictSame of t = time s
      & predict sample seconds_per_tick t dynamics process_noise s =
          MkOutcome (Returned tt) s [::]
  | PredictLater of time s < t
      & predict sample seconds_per_tick t dynamics process_noise s =
          (let dt := duration_cast seconds_per_tick (t - time s) in
           let propagated := propagated_estimate sample dynamics dt (estimate s) in
           MkOutcome (Returned tt)
             (MkStateEstimator t
                (MkMeanAndCovariance (mean propagated)
                   (process_noise dt (mean propagated) (covariance propagated))))
             (propagation_calls dynamics ++ [:: process_noise_call])).

Lemma predictP (t : int) (dynamics : Dynamics F n k)
    (process_noise : ProcessNoise F n) (s : Self) :
  predict_case t dynamics process_noise s.
Proof.
case: (ltgtP t (time s)) => [lt_t|gt_t|eq_t].
- exact: PredictEarlier (predict_earlier _ _ lt_t).
- exact: PredictLater (predict_later _ _ gt_t).
- by apply: PredictSame => //; rewrite eq_t predict_same.
Qed.

(** A second [predict] to the same target time does nothing: the pair of
    calls completes as the first one does, leaves the estimator the first
    one leaves, and invokes only what the first one invokes. *)
Theorem predict_again_noop (t : int) (dynamics dynamics' : Dynamics F n k)
    (process_noise process_noise' : ProcessNoise F n) (s : Self) :
  (predict sample seconds_per_tick t dynamics process_noise
     >> predict sample seconds_per_tick t dynamics' process_noise') s
  = predict sample seconds_per_tick t dynamics process_noise s.
Proof.
case: (predictP t dynamics process_noise s) => [lt_t|eq_t|gt_t] eq_r.
- by rewrite eq_r (bind_threw _ eq_r).
- by rewrite eq_r (bind_returned _ eq_r) eq_t predict_same.
- rewrite eq_r (bind_returned _ eq_r).
  by rewrite (predict_same dynamics' process_noise' (MkStateEstimator t _)) /= cats0.
Qed.

(** [predict] sees the two times only through their difference: moving
    the estimator's time and the target time by the same amount changes
    nothing but the time left in the estimator, which moves along. *)
Theorem predict_time_shift (d t : int) (dynamics : Dynamics F n k)
    (process_noise : ProcessNoise F n) (s : Self) :
  let r := predict sample seconds_per_tick t dynamics process_noise s in
  let r' := predict sample seconds_per_tick (t + d) dynamics process_noise
              (MkStateEstimator (time s + d) (estimate s)) in
  [/\ completed r' = completed r,
      calls r' = calls r,
      estimate (self_after r') = estimate (self_after r)
    & time (self_after r') = time (self_after r) + d].
Proof.
have same_duration : t + d - (time s + d) = t - time s.
  by rewrite opprD addrACA subrr addr0.
rewrite /predict /bind /= same_duration.
case: (t - time s == 0) => //=; case: (t - time s < 0) => //=.
by case: dynamics.
Qed.

(** [duration_cast] is additive. *)
Lemma duration_castD (d1 d2 : int) :
  duration_cast seconds_per_tick (d1 + d2)
  = duration_cast seconds_per_tick d1 + duration_cast seconds_per_tick d2.
Proof. by rewrite /duration_cast rmorphD /= mulrDl. Qed.

(** A static model (identity transition) with additive process noise: going
    to [t2] through an intermediate time [t1] leaves the estimator that
    going to [t2] at once leaves. *)
Theorem predict_static_stopover (Q : 'M[F]_n) (t1 t2 : int) (s : Self) :
  let static := DirectDynamics k (linear_dynamics 1%:M) in
  let noise := as_process_noise (MkTimeDependentAdditiveProcessNoise Q) in
  let stopover := (predict sample seconds_per_tick t1 static noise
                     >> predict sample seconds_per_tick t2 static noise) s in
  let direct := predict sample seconds_per_tick t2 static noise s in
  time s <= t1 -> t1 <= t2 ->
  completed stopover = completed direct
  /\ self_after stopover = self_after direct.
Proof.
move=> static noise stopover direct; rewrite /stopover /direct {stopover direct}.
rewrite le_eqVlt => /orP[/eqP <-|lt_t1].
  by rewrite (bind_returned _ (predict_same _ _ _)).
rewrite (bind_returned _ (predict_later _ _ lt_t1)).
rewrite le_eqVlt => /orP[/eqP <-|lt_t2].
  rewrite (predict_same static noise (MkStateEstimator t1 _)).
  by rewrite (predict_later _ _ lt_t1).
rewrite predict_later // (predict_later _ _ (lt_trans lt_t1 lt_t2)) /=; split=> //.
rewrite !mul1mx !trmx1 !mulmx1 /noise (@as_process_noiseD _ _ _ _ _ _ _ (mean (estimate s))).
by rewrite -duration_castD addrC subrKA.
Qed.

End PredictTheory.

(** ** [predict_observation] and [assimilate] *)

Section AssimilateTheory.

Variable F : fieldType.
Variables n k : nat.
Variable sample : MeanAndCovariance F n -> WeightedSamples F n k.
Variable lu_inverse : forall m : nat, 'M[F]_m -> 'M[F]_m.

Local Notation Self := (StateEstimator F n).

Hypothesis lu_inverseP :
  forall m (A : 'M[F]_m), A \in unitmx -> lu_inverse A = invmx A.

(** [predict_observation] on the direct branch. *)
Lemma predict_observation_direct m (Aug : Type)
    (call : MeanAndCovariance F n -> Aug -> MeanAndCovariance F m)
    (jacobian : MeanAndCovariance F n -> Aug -> 'M[F]_(m, n))
    (a : Aug) (s : Self) :
  predict_observation sample (DirectObserver k call jacobian) a s =
    MkOutcome
      (Returned (MkPredictedObservation (call (estimate s) a)
                   (covariance (estimate s) *m (jacobian (estimate s) a)^T)))
      s [:: observer_call; jacobian_call].
Proof. by []. Qed.

(** An observation that is uncorrelated with the state teaches nothing:
    with a zero cross-covariance and an invertible innovation covariance,
    [assimilate] leaves the estimator as it was. *)
Theorem assimilate_uncorrelated m (po : PredictedObservation F n m)
    (obs : MeanAndCovariance F m) (s : Self) :
  cross_covariance po = 0 ->
  covariance (base po) + covariance obs \in unitmx ->
  assimilate lu_inverse po obs s = MkOutcome (Returned tt) s [::].
Proof.
move=> C0 S_unit; rewrite assimilate_unfold /= lu_inverseP // C0.
by rewrite !mul0mx addr0 subr0; case: s => t [mu P].
Qed.

(** An observation equal to the predicted one leaves the mean where it
    was, when the innovation covariance is invertible. *)
Theorem assimilate_no_innovation m (po : PredictedObservation F n m)
    (obs : MeanAndCovariance F m) (s : Self) :
  mean obs = mean (base po) ->
  covariance (base po) + covariance obs \in unitmx ->
  mean (estimate (self_after (assimilate lu_inverse po obs s)))
  = mean (estimate s).
Proof.
move=> eq_mean S_unit.
by rewrite assimilate_unfold /= lu_inverseP // eq_mean subrr mulmx0 addr0.
Qed.

(** [predict_observation] on the sampled branch, for a linear map applied
    to sigma points that reproduce the mean and covariance of the
    estimate. *)
Lemma predict_observation_sampled_linear m (H : 'M[F]_(m, n)) (Aug : Type)
    (a : Aug) (s : Self) :
  statistics (sample (estimate s)) = estimate s ->
  predict_observation sample (SampledObserver (linear_map_samples H (Aug:=Aug))) a s =
    MkOutcome
      (Returned (MkPredictedObservation (linear_observer H (estimate s) a)
                   (covariance (estimate s) *m H^T)))
      s [:: sample_call; observer_call].
Proof.
move=> exact_s; rewrite /predict_observation /bind /=.
congr (MkOutcome (Returned (MkPredictedObservation _ _)) _ _).
  by rewrite statistics_linear_map exact_s.
rewrite -[in RHS]exact_s /statistics /mean_centered_samples /=.
by rewrite -!mulmxA -mulmxBr trmx_mul !mulmxA.
Qed.

(** [assimilate] on what a linear observer predicts. *)
Lemma assimilate_linear_prediction m (H : 'M[F]_(m, n)) (Aug : Type) (a : Aug)
    (obs : MeanAndCovariance F m) (s : Self) :
  let P := covariance (estimate s) in
  let S := H *m P *m H^T + covariance obs in
  let K := P *m H^T *m invmx S in
  symmetric P -> symmetric (covariance obs) -> S \in unitmx ->
  assimilate lu_inverse
    (MkPredictedObservation (linear_observer H (estimate s) a) (P *m H^T)) obs s =
    MkOutcome (Returned tt)
      (MkStateEstimator (time s)
         (MkMeanAndCovariance
            (mean (estimate s) + K *m (mean obs - H *m mean (estimate s)))
            (P - K *m H *m P)))
      [::].
Proof.
move=> P S K symP symR S_unit.
rewrite assimilate_unfold /= -/P -/S lu_inverseP // -/K.
have symS : S^T = S.
  by rewrite /S linearD /= !trmx_mul trmxK symP symR mulmxA.
have -> : K *m S *m K^T = K *m H *m P.
  rewrite {2}/K mulmxKV // /K !trmx_mul trmxK trmx_inv symS symP.
  by rewrite !mulmxA.
by [].
Qed.

(** The measurement update with a linear observer [H] on the direct
    branch, for a symmetric state covariance [P], a symmetric measurement
    covariance [R] and an invertible [S = H P H^T + R]: the textbook Kalman
    update, mean [m + K (z - H m)] and covariance [P - K H P] with
    [K = P H^T S^-1]. *)
Theorem observe_and_assimilate_linear m (H : 'M[F]_(m, n)) (Aug : Type)
    (a : Aug) (obs : MeanAndCovariance F m) (s : Self) :
  let P := covariance (estimate s) in
  let S := H *m P *m H^T + covariance obs in
  let K := P *m H^T *m invmx S in
  symmetric P -> symmetric (covariance obs) -> S \in unitmx ->
  observe_and_assimilate sample lu_inverse
    (DirectObserver k (linear_observer H (Aug:=Aug)) (linear_jacobian H (Aug:=Aug)))
    a obs s =
    MkOutcome (Returned tt)
      (MkStateEstimator (time s)
         (MkMeanAndCovariance
            (mean (estimate s) + K *m (mean obs - H *m mean (estimate s)))
            (P - K *m H *m P)))
      [:: observer_call; jacobian_call].
Proof.
move=> P S K symP symR S_unit.
rewrite /observe_and_assimilate (bind_returned _ (predict_observation_direct _ _ _ _)).
by rewrite /linear_jacobian (assimilate_linear_prediction a).
Qed.

(** The same update on the sampled branch: when the sigma points of the
    estimate reproduce its mean and covariance, a linear map [H] applied to
    them gives the Kalman update of the direct branch; the sampler and the
    observer are each invoked once. *)
Theorem observe_and_assimilate_sampled_linear m (H : 'M[F]_(m, n)) (Aug : Type)
    (a : Aug) (obs : MeanAndCovariance F m) (s : Self) :
  let P := covariance (estimate s) in
  let S := H *m P *m H^T + covariance obs in
  let K := P *m H^T *m invmx S in
  statistics (sample (estimate s)) = estimate s ->
  symmetric P -> symmetric (covariance obs) -> S \in unitmx ->
  observe_and_assimilate sample lu_inverse
    (SampledObserver (linear_map_samples H (Aug:=Aug))) a obs s =
    MkOutcome (Returned tt)
      (MkStateEstimator (time s)
         (MkMeanAndCovariance
            (mean (estimate s) + K *m (mean obs - H *m mean (estimate s)))
            (P - K *m H *m P)))
      [:: sample_call; observer_call].
Proof.
move=> P S K exact_s symP symR S_unit.
rewrite /observe_and_assimilate.
rewrite (bind_returned _ (predict_observation_sampled_linear _ _ exact_s)).
by rewrite (assimilate_linear_prediction a).
Qed.

(** A noiseless measurement of the whole state, for an invertible state
    covariance: the estimate becomes the measurement, with zero
    covariance. *)
Theorem observe_and_assimilate_exact (Aug : Type) (a : Aug) (z : 'cV[F]_n)
    (s : Self) :
  covariance (estimate s) \in unitmx ->
  observe_and_assimilate sample lu_inverse
    (DirectObserver k (linear_observer 1%:M (Aug:=Aug))
                      (linear_jacobian 1%:M (Aug:=Aug)))
    a (MkMeanAndCovariance z 0) s =
    MkOutcome (Returned tt)
      (MkStateEstimator (time s) (MkMeanAndCovariance z 0))
      [:: observer_call; jacobian_call].
Proof.
move=> P_unit.
rewrite /observe_and_assimilate (bind_returned _ (predict_observation_direct _ _ _ _)).
rewrite assimilate_unfold /= /linear_jacobian !mul1mx !trmx1 !mulmx1 addr0.
by rewrite lu_inverseP // mulmxV // !mul1mx trmx1 mulmx1 subrr addrC subrK.
Qed.

End AssimilateTheory.

Section VarianceTheory.

(** Scalars with an order in which squares are not negative. *)
Variable F : realFieldType.
Variable n : nat.
Variable lu_inverse : forall m : nat, 'M[F]_m -> 'M[F]_m.

Hypothesis lu_inverseP :
  forall m (A : 'M[F]_m), A \in unitmx -> lu_inverse A = invmx A.

(** A one-by-one matrix with a non-zero entry is invertible, and its
    inverse is the inverse of the entry. *)
Lemma scalar_unit (S : 'M[F]_1) : S 0 0 != 0 -> S \in unitmx.
Proof. by move=> S_neq0; rewrite unitmxE det_mx11 unitfE. Qed.

Lemma scalar_invmx (S : 'M[F]_1) : invmx S = ((S 0 0)^-1)%:M.
Proof. by rewrite {1}[S]mx11_scalar invmx_scalar. Qed.

(** The diagonal of [K S K^T] for the gain [K = C S^-1] of a scalar
    observation. *)
Lemma scalar_gain_diag (C : 'cV[F]_n) (S : 'M[F]_1) (i : 'I_n) :
  S 0 0 != 0 ->
  (C *m invmx S *m S *m (C *m invmx S)^T) i i = (C i 0) ^+ 2 / S 0 0.
Proof.
move=> S_neq0; rewrite mulmxKV ?scalar_unit // scalar_invmx.
rewrite mul_mx_scalar !mxE big_ord_recl big_ord0 addr0 !mxE.
by rewrite mulrCA -expr2 mulrC.
Qed.

(** Assimilating a scalar observation whose innovation variance is
    positive takes the square of the cross-covariance over the innovation
    variance off the variance of each state component, and so never
    increases it. *)
Theorem assimilate_scalar_shrinks (po : PredictedObservation F n 1)
    (obs : MeanAndCovariance F 1) (s : StateEstimator F n) (i : 'I_n) :
  let S := covariance (base po) + covariance obs in
  let P' := covariance (estimate (self_after (assimilate lu_inverse po obs s))) in
  0 < S 0 0 ->
  P' i i = covariance (estimate s) i i - (cross_covariance po i 0) ^+ 2 / S 0 0
  /\ P' i i <= covariance (estimate s) i i.
Proof.
move=> S P' S_gt0; have S_neq0 : S 0 0 != 0 by rewrite gt_eqF.
have -> : P' i i
    = covariance (estimate s) i i - (cross_covariance po i 0) ^+ 2 / S 0 0.
  rewrite /P' assimilate_unfold /= lu_inverseP ?scalar_unit // -/S.
  by rewrite 2![in LHS]mxE scalar_gain_diag.
by split=> //; rewrite gerBl divr_ge0 ?sqr_ge0 // ltW.
Qed.

End VarianceTheory.

(** ** Invariants of a run *)

Section RunTheory.

Variable F : fieldType.
Variables n k : nat.
Variable sample : MeanAndCovariance F n -> WeightedSamples F n k.
Variable lu_inverse : forall m : nat, 'M[F]_m -> 'M[F]_m.
Variable seconds_per_tick : F.

Local Notation Self := (StateEstimator F n).
Local Notation run := (lifetime sample lu_inverse seconds_per_tick).
Local Notation do := (perform sample lu_inverse seconds_per_tick).

Hypothesis lu_inverseP :
  forall m (A : 'M[F]_m), A \in unitmx -> lu_inverse A = invmx A.

(** The covariance of a weighted point set is symmetric. *)
Lemma statistics_symmetric m j (sp : WeightedSamples F m j) :
  symmetric (covariance (statistics sp)).
Proof.
rewrite /symmetric /statistics /mean_centered_samples /=.
by rewrite !trmx_mul trmxK tr_diag_mx mulmxA.
Qed.

Lemma linear_dynamics_symmetric (A : 'M[F]_n) :
  dynamics_keeps_symmetry (DirectDynamics k (linear_dynamics A)).
Proof.
move=> belief dt symP; rewrite /symmetric in symP *.
by rewrite /= !trmx_mul trmxK symP mulmxA.
Qed.

(** [predict] with callables that keep the covariance symmetric. *)
Lemma predict_keeps_symmetry (t : int) (dynamics : Dynamics F n k)
    (process_noise : ProcessNoise F n) (s : Self) :
  dynamics_keeps_symmetry dynamics -> noise_keeps_symmetry process_noise ->
  symmetric (covariance (estimate s)) ->
  symmetric (covariance (estimate (self_after
    (predict sample seconds_per_tick t dynamics process_noise s)))).
Proof.
move=> sym_dynamics sym_noise symP.
case: (predictP sample seconds_per_tick t dynamics process_noise s)
  => [lt_t|eq_t|gt_t] -> //=.
apply: sym_noise; case: dynamics sym_dynamics => call /=; first exact.
by move=> _; apply: statistics_symmetric.
Qed.

(** [predict_observation], as one call of a run. *)
Lemma perform_observation m (Aug : Type) (observer : Observer F n k m Aug)
    (a : Aug) (s : Self) :
  completed (do (PredictObservation observer a) s) = Returned tt
  /\ self_after (do (PredictObservation observer a) s) = s.
Proof. by case: observer. Qed.

Lemma perform_keeps_symmetry (op : operation F n k) (s : Self) :
  keeps_symmetry op -> symmetric (covariance (estimate s)) ->
  symmetric (covariance (estimate (self_after (do op s)))).
Proof.
case: op => [t dynamics process_noise|m Aug observer a|m po obs].
- by case; apply: predict_keeps_symmetry.
- by move=> _; case: observer.
- case=> symS S_unit symP; rewrite /perform assimilate_unfold /= lu_inverseP //.
  exact: symmetric_sub_congruence.
Qed.

(** With a linear dynamics model and the additive process noise of a
    symmetric rate matrix, [predict] keeps a symmetric covariance
    symmetric, for every target time. *)
Theorem predict_linear_keeps_symmetry (A Q : 'M[F]_n) (t : int) (s : Self) :
  symmetric Q -> symmetric (covariance (estimate s)) ->
  symmetric (covariance (estimate (self_after
    (predict sample seconds_per_tick t (DirectDynamics k (linear_dynamics A))
       (as_process_noise (MkTimeDependentAdditiveProcessNoise Q)) s)))).
Proof.
move=> symQ; apply: predict_keeps_symmetry; first exact: linear_dynamics_symmetric.
exact: as_process_noise_symmetric.
Qed.

(** Symmetry of the covariance is an invariant of a run, for an exact LU
    inverse: if every call of the sequence keeps symmetry ([predict] with
    callables that do, [assimilate] with a symmetric and invertible
    innovation covariance) and the covariance is symmetric at the start, it
    is symmetric in the state the run ends in. *)
Theorem lifetime_keeps_symmetry (ops : seq (operation F n k)) (s : Self) :
  all_keep_symmetry ops -> symmetric (covariance (estimate s)) ->
  symmetric (covariance (estimate (last s (run ops s)))).
Proof.
elim: ops s => [//|op ops IH] s /= [sym_op sym_ops] symP.
have := perform_keeps_symmetry sym_op symP.
by case: (completed _) => [u|e] //= symP'; apply: IH.
Qed.

(** The time in a call of a run that returns. *)
Lemma perform_time_max (op : operation F n k) (s : Self) (u : unit) :
  completed (do op s) = Returned u ->
  time (self_after (do op s))
  = foldl Order.max (time s) (predict_targets [:: op]).
Proof.
case: op => [t dynamics process_noise|m Aug observer a|m po obs].
- rewrite /perform.
  case: (predictP sample seconds_per_tick t dynamics process_noise s)
    => [lt_t|eq_t|gt_t] -> //= _.
  + by rewrite eq_t maxxx.
  + by rewrite max_r // ltW.
- by case: observer.
- by [].
Qed.

Lemma predict_targets_cons (op : operation F n k) (ops : seq (operation F n k)) :
  predict_targets (op :: ops) = predict_targets [:: op] ++ predict_targets ops.
Proof. by case: op. Qed.

(** The time of an estimator is the latest time it was taken to: after a
    sequence of calls that all return, starting from a newly constructed
    estimator, it is the maximum of the construction time and the target
    times of the [predict] calls. *)
Theorem time_is_latest_target (initial_time : int)
    (initial_estimate : MeanAndCovariance F n) (ops : seq (operation F n k)) :
  let s := StateEstimator_init initial_time initial_estimate in
  size (run ops s) = size ops ->
  time (last s (run ops s))
  = foldl Order.max initial_time (predict_targets ops).
Proof.
move=> s; rewrite -[initial_time]/(time s); move: s => {initial_estimate} s.
elim: ops s => [//|op ops IH] s.
rewrite predict_targets_cons foldl_cat -/(lifetime _ _ _ (op :: ops) s).
have := @perform_time_max op s; rewrite [lifetime _ _ _ _ _]/=.
case: (completed _) => [u|e] // time_op [size_ops].
by rewrite [last _ _]/= IH // (time_op u).
Qed.

End RunTheory.

(** ** Instances on the one-dimensional estimator *)

Section ScalarRunTheory.

Lemma scalar_observed_unit :
  ((1%:M : 'M[rat]_1) *m 1%:M *m (1%:M)^T + 1%:M : 'M[rat]_1) \in unitmx.
Proof. by rewrite mul1mx trmx1 mulmx1 scalar_sum_unit. Qed.

Lemma scalar_run_returns :
  size (lifetime unit_cubature exact_inverse 1 scalar_run
          (StateEstimator_init 0 (scalar_belief 0 1)))
  = size scalar_run.
Proof.
rewrite /scalar_run /lifetime /perform.
by rewrite (predict_later unit_cubature 1 scalar_dynamics scalar_noise
              (s:=StateEstimator_init 0 (scalar_belief 0 1)) (t:=4)).
Qed.

Lemma predict_static_stopover_witness :
  let static := DirectDynamics 2 (linear_dynamics (1%:M : 'M[rat]_1)) in
  let stopover := (predict unit_cubature 1 4 static scalar_noise
                     >> predict unit_cubature 1 7 static scalar_noise)
                    (scalar_prior 0) in
  let direct := predict unit_cubature 1 7 static scalar_noise (scalar_prior 0) in
  ((0 : int) <= 4 /\ (4 : int) <= 7)
  /\ (completed stopover = completed direct
      /\ self_after stopover = self_after direct).
Proof.
split; first by [].
exact: (predict_static_stopover unit_cubature 1 3%:M (s:=scalar_prior 0)
          (t1:=4) (t2:=7) isT isT).
Defined.

Lemma observe_and_assimilate_linear_witness :
  let P := (1%:M : 'M[rat]_1) in
  let H := (1%:M : 'M[rat]_1) in
  let S := H *m P *m H^T + 1%:M in
  let K := P *m H^T *m invmx S in
  [/\ symmetric P, symmetric (1%:M : 'M[rat]_1) & S \in unitmx]
  /\ observe_and_assimilate unit_cubature exact_inverse scalar_observer tt
       scalar_observation (scalar_prior 0) =
     MkOutcome (Returned tt)
       (MkStateEstimator 0
          (MkMeanAndCovariance (0%:M + K *m (5%:M - H *m 0%:M))
                               (P - K *m H *m P)))
       [:: observer_call; jacobian_call].
Proof.
split; first by split; [exact: scalar_symmetric | exact: scalar_symmetric
                        | exact: scalar_observed_unit].
exact: (observe_and_assimilate_linear unit_cubature exact_inverseP tt
          (H:=1%:M) (obs:=scalar_observation) (s:=scalar_prior 0)
          (scalar_symmetric 1) (scalar_symmetric 1) scalar_observed_unit).
Defined.

Lemma observe_and_assimilate_sampled_linear_witness :
  let P := (1%:M : 'M[rat]_1) in
  let H := (1%:M : 'M[rat]_1) in
  let S := H *m P *m H^T + 1%:M in
  let K := P *m H^T *m invmx S in
  [/\ statistics (unit_cubature (estimate (scalar_prior 0))) = estimate (scalar_prior 0),
      symmetric P, symmetric (1%:M : 'M[rat]_1) & S \in unitmx]
  /\ observe_and_assimilate unit_cubature exact_inverse
       (SampledObserver (linear_map_samples (1%:M : 'M[rat]_1) (Aug:=unit))) tt
       scalar_observation (scalar_prior 0) =
     MkOutcome (Returned tt)
       (MkStateEstimator 0
          (MkMeanAndCovariance (0%:M + K *m (5%:M - H *m 0%:M))
                               (P - K *m H *m P)))
       [:: sample_call; observer_call].
Proof.
split; first by split; [exact: (unit_cubature_exact 0) | exact: scalar_symmetric
                        | exact: scalar_symmetric | exact: scalar_observed_unit].
exact: (observe_and_assimilate_sampled_linear exact_inverseP tt
          (H:=1%:M) (obs:=scalar_observation) (s:=scalar_prior 0)
          (unit_cubature_exact 0)
          (scalar_symmetric 1) (scalar_symmetric 1) scalar_observed_unit).
Defined.

Lemma observe_and_assimilate_exact_witness :
  (1%:M : 'M[rat]_1) \in unitmx
  /\ observe_and_assimilate unit_cubature exact_inverse scalar_observer tt
       (MkMeanAndCovariance 5%:M 0) (scalar_prior 0) =
     MkOutcome (Returned tt)
       (MkStateEstimator 0 (MkMeanAndCovariance 5%:M 0))
       [:: observer_call; jacobian_call].
Proof.
split; first exact: unitmx1.
exact: (observe_and_assimilate_exact unit_cubature exact_inverseP tt 5%:M
          (s:=scalar_prior 0) (unitmx1 _ _)).
Defined.

Lemma time_is_latest_target_witness :
  let s := StateEstimator_init 0 (scalar_belief 0 1) in
  time (last s (lifetime unit_cubature exact_inverse 1 scalar_run s))
  = foldl Order.max 0 (predict_targets scalar_run).
Proof. exact: (time_is_latest_target scalar_run_returns). Defined.

End ScalarRunTheory.

(** ** [predict] with callables that throw *)

Section FallibleTheory.

Variable F : fieldType.
Variables n k : nat.
Variable sample : MeanAndCovariance F n -> WeightedSamples F n k.
Variable seconds_per_tick : F.
Variable E : Type.

Local Notation Self := (StateEstimator F n).
Local Notation run_predict := (predict_fallible sample seconds_per_tick).

(** On callables that return, [predict_fallible] is [predict]. *)
Lemma predict_fallible_returning (t : int) (dynamics : Dynamics F n k)
    (process_noise : ProcessNoise F n) (s : Self) :
  run_predict t (returning_dynamics E dynamics)
    (returning_noise E process_noise) s
  = as_fallible_outcome E (predict sample seconds_per_tick t dynamics process_noise s).
Proof.
case: (predictP sample seconds_per_tick t dynamics process_noise s)
  => [lt_t|eq_t|gt_t] ->; rewrite /predict_fallible.
- by rewrite !(earlier_duration lt_t).
- by rewrite eq_t subrr eqxx.
- by rewrite !(later_duration gt_t); case: dynamics.
Qed.

(** [predict] throws its own error exactly when the target time is earlier
    than the estimator's time; any other exception that leaves it was
    thrown by a callable, and then the target time is later. *)
Theorem predict_fallible_time_order (t : int) (dynamics : FallibleDynamics F n k E)
    (process_noise : FallibleProcessNoise F n E) (s : Self) :
  let r := run_predict t dynamics process_noise s in
  ((exists e, ended r = TimeOrder e) <-> t < time s)
  /\ (forall e, ended r = Propagated e -> time s < t).
Proof.
rewrite /predict_fallible subr_eq0 subr_lt0.
case: (ltgtP t (time s)) => [lt_t|gt_t|eq_t] /=.
- by split=> //; split=> // _; eexists.
- case: (fallible_propagation _ _ _ _) => [[propagated|e remains] log] /=;
    last by split=> //; split=> // -[].
  by case: (process_noise _ _ _) => [inflated|e remains] /=;
    split=> //; split=> // -[].
- by split=> //; split=> // -[].
Qed.

(** [predict] to a target time that is not earlier leaves the estimator's
    time at the target time whether or not a callable throws: the time is
    assigned before the callables are invoked. *)
Theorem predict_fallible_reaches_target (t : int)
    (dynamics : FallibleDynamics F n k E)
    (process_noise : FallibleProcessNoise F n E) (s : Self) :
  time s <= t ->
  let r := run_predict t dynamics process_noise s in
  time (object_after r) = t
  /\ (ended r = Finished \/ exists e, ended r = Propagated e).
Proof.
rewrite /predict_fallible subr_eq0 subr_lt0 leNgt.
case: (ltgtP t (time s)) => [//|gt_t|eq_t] _ /=; last by split=> //; left.
case: (fallible_propagation _ _ _ _) => [[propagated|e remains] log] /=;
  last by split=> //; right; exists e.
by case: (process_noise _ _ _) => [inflated|e remains] /=;
  split=> //; [left | right; exists e].
Qed.

(** A dynamics that throws and leaves its argument alone: [predict] passes
    the exception on with the time advanced to the target time and the
    estimate of the earlier time still in place. *)
Theorem predict_fallible_stale (t : int) (dynamics : FallibleDynamics F n k E)
    (process_noise : FallibleProcessNoise F n E) (s : Self) (e : E) :
  let dt := duration_cast seconds_per_tick (t - time s) in
  time s < t ->
  (fallible_propagation sample dynamics dt (estimate s)).1 = Raises e (estimate s) ->
  let r := run_predict t dynamics process_noise s in
  ended r = Propagated e /\ object_after r = MkStateEstimator t (estimate s).
Proof.
move=> dt gt_t; rewrite /predict_fallible !(later_duration gt_t) -/dt.
by case: (fallible_propagation _ _ _ _) => propagation log /= ->.
Qed.


(** The process noise decides nothing but the covariance and whether the
    call returns: with two different process noises, throwing or not,
    [predict] leaves the same time and the same mean, and invokes the same
    callables. *)
Theorem predict_fallible_mean_ignores_noise (t : int)
    (dynamics : FallibleDynamics F n k E)
    (process_noise process_noise' : FallibleProcessNoise F n E) (s : Self) :
  let r := run_predict t dynamics process_noise s in
  let r' := run_predict t dynamics process_noise' s in
  [/\ time (object_after r) = time (object_after r'),
      mean (estimate (object_after r)) = mean (estimate (object_after r'))
    & invoked r = invoked r'].
Proof.
rewrite /predict_fallible.
case: (t - time s == 0) => //=; case: (t - time s < 0) => //=.
case: (fallible_propagation _ _ _ _) => [[propagated|e remains] log] //=.
by case: (process_noise _ _ _); case: (process_noise' _ _ _).
Qed.

End FallibleTheory.

(** ** Instances on the two-dimensional estimator *)

Section PlanarTheory.

Lemma planar_covariance_symmetric : symmetric planar_covariance.
Proof. by apply/matrixP=> i j; rewrite !mxE eq_sym. Qed.

Lemma planar_noise_rate_symmetric : symmetric planar_noise_rate.
Proof. by apply/matrixP=> i j; rewrite !mxE eq_sym. Qed.

(** The transition matrix is not symmetric. *)
Lemma planar_transition_asymmetric : ~ symmetric planar_transition.
Proof.
move/matrixP=> /(_ 0 1); rewrite !mxE /=.
by move/eqP; rewrite eq_sym oner_eq0.
Qed.

Lemma planar_innovation_symmetric : symmetric (planar_covariance + 1%:M).
Proof.
by rewrite /symmetric linearD /= tr_scalar_mx planar_covariance_symmetric.
Qed.

Lemma planar_innovation_unit : planar_covariance + 1%:M \in unitmx.
Proof.
have [|//] := @mulmx1_unit _ _ (planar_covariance + 1%:M)
  (\matrix_(i, j) (if i == j then 3 / 8 else - (1 / 8))).
apply/matrixP=> i j; rewrite !mxE !big_ord_recl big_ord0 !mxE /=.
by case: i => [[|[|i]] lt_i] //; case: j => [[|[|j]] lt_j].
Qed.

Lemma planar_scalar_innovation_gt0 :
  0 < (covariance (base planar_scalar_predicted) + covariance scalar_observation) 0 0.
Proof. by rewrite !mxE. Qed.

Lemma planar_run_keeps_symmetry : all_keep_symmetry planar_run.
Proof.
have sym_predict t : keeps_symmetry (Predict t planar_dynamics planar_noise).
  split; first exact: linear_dynamics_symmetric.
  exact: as_process_noise_symmetric planar_noise_rate_symmetric.
split; first exact: sym_predict.
split; last by split; first exact: sym_predict.
by split; [exact: planar_innovation_symmetric | exact: planar_innovation_unit].
Qed.

(** Symmetry through [assimilate], on two correlated components with a
    cross-covariance that is not symmetric. *)
Lemma assimilate_symmetric_witness :
  let S := planar_covariance + 1%:M in
  let K := planar_transition *m invmx S in
  let P' := covariance (estimate (self_after
              (assimilate exact_inverse planar_predicted planar_observation
                 (planar_prior 0)))) in
  [/\ symmetric planar_covariance, symmetric S & S \in unitmx]
  /\ (P' = planar_covariance - K *m S *m K^T /\ symmetric P').
Proof.
split; first by split; [exact: planar_covariance_symmetric
                       | exact: planar_innovation_symmetric
                       | exact: planar_innovation_unit].
exact: (assimilate_symmetric exact_inverseP (po:=planar_predicted)
          (obs:=planar_observation) (s:=planar_prior 0)
          planar_covariance_symmetric planar_innovation_symmetric
          planar_innovation_unit).
Defined.

Lemma predict_fallible_reaches_target_witness :
  (0 : int) <= 4 /\
  (let r := predict_fallible planar_sampler 1 4 throwing_dynamics throwing_noise
              (planar_prior 0) in
   time (object_after r) = 4
   /\ (ended r = Finished \/ exists e, ended r = Propagated e)).
Proof.
split; first by [].
exact: (predict_fallible_reaches_target planar_sampler 1 throwing_dynamics
          throwing_noise (s:=planar_prior 0) (t:=4) isT).
Defined.

Lemma predict_fallible_stale_witness :
  (0 : int) < 4 /\
  (let r := predict_fallible planar_sampler 1 4 throwing_dynamics throwing_noise
              (planar_prior 0) in
   ended r = Propagated 7%N /\ object_after r = MkStateEstimator 4 planar_belief).
Proof.
split; first by [].
by apply: (@predict_fallible_stale _ _ _ planar_sampler 1 _ 4 throwing_dynamics
             throwing_noise (planar_prior 0) 7%N).
Defined.

Lemma assimilate_uncorrelated_witness :
  planar_covariance + 1%:M \in unitmx /\
  assimilate exact_inverse
    (MkPredictedObservation planar_belief (0 : 'M[rat]_2))
    planar_observation (planar_prior 0)
  = MkOutcome (Returned tt) (planar_prior 0) [::].
Proof.
split; first exact: planar_innovation_unit.
exact: (assimilate_uncorrelated exact_inverseP
          (po:=MkPredictedObservation planar_belief 0)
          (obs:=planar_observation) (planar_prior 0) erefl
          planar_innovation_unit).
Defined.

Lemma assimilate_no_innovation_witness :
  planar_covariance + 1%:M \in unitmx /\
  mean (estimate (self_after
    (assimilate exact_inverse planar_predicted
       (MkMeanAndCovariance (const_mx 1) 1%:M) (planar_prior 0))))
  = mean (estimate (planar_prior 0)).
Proof.
split; first exact: planar_innovation_unit.
exact: (assimilate_no_innovation exact_inverseP (po:=planar_predicted)
          (obs:=MkMeanAndCovariance (const_mx 1) 1%:M) (planar_prior 0) erefl
          planar_innovation_unit).
Defined.

Lemma assimilate_scalar_shrinks_witness :
  let S := covariance (base planar_scalar_predicted) + covariance scalar_observation in
  let P' := covariance (estimate (self_after
              (assimilate exact_inverse planar_scalar_predicted
                 scalar_observation (planar_prior 0)))) in
  0 < S 0 0 /\
  (P' 0 0 = planar_covariance 0 0
            - (cross_covariance planar_scalar_predicted 0 0) ^+ 2 / S 0 0
   /\ P' 0 0 <= planar_covariance 0 0).
Proof.
split; first exact: planar_scalar_innovation_gt0.
exact: (assimilate_scalar_shrinks exact_inverseP (po:=planar_scalar_predicted)
          (obs:=scalar_observation) (planar_prior 0) 0
          planar_scalar_innovation_gt0).
Defined.

Lemma predict_linear_keeps_symmetry_witness :
  [/\ symmetric planar_noise_rate, symmetric planar_covariance
    & ~ symmetric planar_transition]
  /\ symmetric (covariance (estimate (self_after
       (predict planar_sampler 1 4 planar_dynamics planar_noise (planar_prior 0))))).
Proof.
split; first by split; [exact: planar_noise_rate_symmetric
                       | exact: planar_covariance_symmetric
                       | exact: planar_transition_asymmetric].
exact: (predict_linear_keeps_symmetry planar_sampler 1 planar_transition 4
          (s:=planar_prior 0) planar_noise_rate_symmetric
          planar_covariance_symmetric).
Defined.

Lemma lifetime_keeps_symmetry_witness :
  symmetric (covariance (estimate
    (last (planar_prior 0)
       (lifetime planar_sampler exact_inverse 1 planar_run (planar_prior 0))))).
Proof.
exact: (lifetime_keeps_symmetry planar_sampler 1 exact_inverseP
          (s:=planar_prior 0) planar_run_keeps_symmetry
          planar_covariance_symmetric).
Defined.

End PlanarTheory.
